(** * Support copilot ([app.py]): issue analysis, reply template,
      conversation summary and the simulated API endpoint.

    The Python program is embedded function by function.  Python text is a
    [string] whose characters are the code points below 256; a timestamp is
    the number of microseconds it denotes (the store keeps timestamps as
    text of the layout [YYYY-MM-DD HH:MM:SS[.ffffff]], which orders like the
    instant); the two readings of [time.time()] are binary64 floats; an
    exception raised by the Python code is the [Raise] result. *)

From Stdlib Require Import ZArith List Bool Lia String Ascii.
From Stdlib Require Import DecimalString.
From Stdlib Require Import Permutation Sorted.
From Corelib Require Import PrimFloat.
Import ListNotations.

Local Open Scope string_scope.
Local Open Scope Z_scope.

(** ** Python text *)

Module Text.

(** [str.lower()] on one code point below 256: [A]-[Z] and the Latin-1
    capitals [U+00C0]-[U+00DE] (the sign [U+00D7] apart) move up by 32. *)
Definition lower_char (c : ascii) : ascii :=
  let n := N_of_ascii c in
  if ((65 <=? n) && (n <=? 90))%N then ascii_of_N (n + 32)
  else if ((192 <=? n) && (n <=? 222) && negb (n =? 215))%N
       then ascii_of_N (n + 32)
  else c.

Fixpoint lower (s : string) : string :=
  match s with
  | EmptyString => EmptyString
  | String c r => String (lower_char c) (lower r)
  end.

(** [w in s]: [w] occurs in [s] as a contiguous run of characters. *)
Fixpoint contains (w s : string) : bool :=
  if String.prefix w s then true
  else match s with
       | EmptyString => false
       | String _ r => contains w r
       end.

(** [s[:n]] for a non-negative [n]. *)
Definition take (n : nat) (s : string) : string := String.substring 0 n s.

(** [str(i)] for an integer. *)
Definition of_int (z : Z) : string := NilZero.string_of_int (Z.to_int z).

(** Text joined piece after piece. *)
Fixpoint join (l : list string) : string :=
  match l with
  | [] => ""
  | s :: r => s ++ join r
  end.

(** The lines of a text, split at line feeds as [str.split('\n')] does. *)
Fixpoint lines_from (cur : string) (s : string) : list string :=
  match s with
  | EmptyString => [cur]
  | String c r =>
      if Ascii.eqb c "010"%char then cur :: lines_from "" r
      else lines_from (cur ++ String c "") r
  end.

Definition lines (s : string) : list string := lines_from "" s.

End Text.

(** ** Severity classification (the keyword scan of [analyze_issue]) *)

(** The [keywords] dict; a dict iterates in insertion order. *)
Definition keywords : list (string * list string) :=
  [ ("High",   ["failure"; "crash"; "urgent"]);
    ("Normal", ["issue"; "problem"]);
    ("Low",    ["glitch"; "minor"]) ].

(** [any(word in issue_description_lower for word in words)] *)
Definition any_word_in (words : list string) (text : string) : bool :=
  existsb (fun word => Text.contains word text) words.

(** The [for sev, words in keywords.items(): ... break] loop, started from
    the severity assigned before it. *)
Fixpoint scan (kw : list (string * list string)) (text : string)
    (severity : string) : string :=
  match kw with
  | [] => severity
  | (sev, words) :: rest =>
      if any_word_in words text then sev else scan rest text severity
  end.

Definition classify (issue_description : string) : string :=
  let severity := "Normal" in
  let issue_description_lower := Text.lower issue_description in
  scan keywords issue_description_lower severity.

(** ** Python values, exceptions and results *)

(** The values a request or an analysis can hold. *)
#[warnings="-register-all"]
Inductive value : Type :=
| VNone
| VBool (b : bool)
| VInt (z : Z)
| VStr (s : string)
| VList (l : list value)
| VDict (d : list (string * value)).

(** A dict with text keys, in insertion order. *)
Definition dict : Type := list (string * value).

Inductive exn : Type :=
| KeyError (key : value)
| IndexError
| TypeError
| AttributeError
| Sqlite3Error.

Inductive result (A : Type) : Type :=
| Return (a : A)
| Raise (e : exn).

Arguments Return {A} a.
Arguments Raise {A} e.

Definition bind {A B : Type} (m : result A) (k : A -> result B) : result B :=
  match m with
  | Return a => k a
  | Raise e => Raise e
  end.

Notation "x <- m ;; k" := (bind m (fun x => k))
  (at level 61, m at next level, right associativity).

Module Py.

(** [d.get(key)] on the pairs of a dict. *)
Fixpoint lookup (key : string) (d : dict) : option value :=
  match d with
  | [] => None
  | (k, v) :: rest => if String.eqb k key then Some v else lookup key rest
  end.

(** [d[key] = v]: an existing key keeps its place, a new one goes last. *)
Fixpoint setitem (key : string) (v : value) (d : dict) : dict :=
  match d with
  | [] => [(key, v)]
  | (k, x) :: rest =>
      if String.eqb k key then (k, v) :: rest
      else (k, x) :: setitem key v rest
  end.

(** [d[key]] on a dict. *)
Definition getitem (d : dict) (key : string) : result value :=
  match lookup key d with
  | Some v => Return v
  | None => Raise (KeyError (VStr key))
  end.

(** [v[key]] with a text key, on any value: only a dict can be indexed
    by a text. *)
Definition subscript_key (v : value) (key : string) : result value :=
  match v with
  | VDict d => getitem d key
  | VList _ | VStr _ | VNone | VBool _ | VInt _ => Raise TypeError
  end.

(** [v[0]], on any value: the first element of a list or the first
    character of a text; no dict of the model has the key [0]; the other
    values cannot be indexed. *)
Definition subscript_0 (v : value) : result value :=
  match v with
  | VList (x :: _) => Return x
  | VList [] => Raise IndexError
  | VStr (String c _) => Return (VStr (String c ""))
  | VStr EmptyString => Raise IndexError
  | VDict _ => Raise (KeyError (VInt 0))
  | VNone | VBool _ | VInt _ => Raise TypeError
  end.

(** The truth value of [v] in a condition. *)
Definition truthy (v : value) : bool :=
  match v with
  | VNone => false
  | VBool b => b
  | VInt z => negb (z =? 0)
  | VStr s => negb (String.eqb s "")
  | VList l => match l with [] => false | _ => true end
  | VDict d => match d with [] => false | _ => true end
  end.

Definition hex_digit (n : N) : ascii :=
  (if n <? 10 then ascii_of_N (48 + n) else ascii_of_N (87 + n))%N.

(** A character inside [repr] of a text quoted with [quote]. *)
Definition repr_char (quote : ascii) (c : ascii) : string :=
  let n := N_of_ascii c in
  if Ascii.eqb c quote || Ascii.eqb c "\"%char then String "\" (String c "")
  else if (n =? 9)%N then "\t"
  else if (n =? 10)%N then "\n"
  else if (n =? 13)%N then "\r"
  else if ((n <? 32) || (n =? 127) || ((128 <=? n) && (n <=? 160)) || (n =? 173))%N
       then String "\" (String "x" (String (hex_digit (n / 16)) (String (hex_digit (n mod 16)) "")))
  else String c "".

(** The double quote character. *)
Definition dquote : ascii := "034"%char.

Fixpoint has_char (c : ascii) (s : string) : bool :=
  match s with
  | EmptyString => false
  | String x r => Ascii.eqb x c || has_char c r
  end.

Fixpoint repr_chars (quote : ascii) (s : string) : string :=
  match s with
  | EmptyString => ""
  | String c r => repr_char quote c ++ repr_chars quote r
  end.

(** [repr(s)] of a text: double quotes only when the text holds a single
    quote and no double quote. *)
Definition repr_str (s : string) : string :=
  let quote :=
    if has_char "'"%char s && negb (has_char dquote s) then dquote
    else "'"%char in
  String quote (repr_chars quote s ++ String quote "").

Fixpoint repr (v : value) : string :=
  match v with
  | VNone => "None"
  | VBool true => "True"
  | VBool false => "False"
  | VInt z => Text.of_int z
  | VStr s => repr_str s
  | VList l =>
      "[" ++
      (fix items (l : list value) : string :=
         match l with
         | [] => ""
         | x :: r =>
             match r with
             | [] => repr x
             | _ :: _ => repr x ++ ", " ++ items r
             end
         end) l ++ "]"
  | VDict d =>
      "{" ++
      (fix items (d : list (string * value)) : string :=
         match d with
         | [] => ""
         | (k, x) :: r =>
             match r with
             | [] => repr_str k ++ ": " ++ repr x
             | _ :: _ => repr_str k ++ ": " ++ repr x ++ ", " ++ items r
             end
         end) d ++ "}"
  end.

(** [str(v)], which is what a replacement field [{v}] of an f-string
    inserts. *)
Definition str (v : value) : string :=
  match v with
  | VStr s => s
  | _ => repr v
  end.

End Py.

(** ** Timestamps *)

Module Datetime.

Definition is_leap (year : Z) : bool :=
  ((year mod 4 =? 0) && negb (year mod 100 =? 0)) || (year mod 400 =? 0).

Definition days_before_year (year : Z) : Z :=
  let y := year - 1 in
  y * 365 + y / 4 - y / 100 + y / 400.

Definition days_before_month (year month : Z) : Z :=
  nth (Z.to_nat (month - 1))
      [0; 31; 59; 90; 120; 151; 181; 212; 243; 273; 304; 334] 0
  + (if (2 <? month) && is_leap year then 1 else 0).

(** The day number of a date, 0001-01-01 being day 1. *)
Definition ymd2ord (year month day : Z) : Z :=
  days_before_year year + days_before_month year month + day.

(** Microseconds in a [timedelta]. *)
Definition seconds (n : Z) : Z := n * 1000000.
Definition hours (n : Z) : Z := seconds (n * 3600).

(** The instant [YYYY-MM-DD HH:MM:SS], in microseconds since the start
    of day 1. *)
Definition datetime (year month day hour minute second : Z) : Z :=
  hours ((ymd2ord year month day - 1) * 24 + hour)
  + seconds (minute * 60 + second).

End Datetime.

(** ** The issue store *)

Module Store.

(** A row of table [issues]. *)
Record issue : Type := {
  id : Z;
  customer_id : string;
  issue_description : string;
  created_at : Z;
  severity : string;
  status : string;
  product_id : string;
  resolution : option string
}.

(** A row of table [conversations]. *)
Record conversation : Type := {
  issue_id : Z;
  message : string;
  sender : string;
  timestamp : Z
}.

(** A connection: the rows of both tables, in insertion order. *)
Record conn : Type := {
  issues : list issue;
  conversations : list conversation
}.

(** [SELECT COUNT( * ) FROM issues WHERE customer_id = ?] *)
Definition count_issues (c : conn) (customer : string) : Z :=
  Z.of_nat (List.length
    (filter (fun i => String.eqb (customer_id i) customer) (issues c))).

(** [SELECT issue_description, resolution FROM issues
     WHERE product_id = ? AND status = 'Resolved'] *)
Definition find_resolved (c : conn) (product : string)
    : list (string * option string) :=
  map (fun i => (issue_description i, resolution i))
    (filter (fun i => String.eqb (product_id i) product
                      && String.eqb (status i) "Resolved") (issues c)).

(** The [WHERE] clause of the count of unattended critical issues. *)
Definition open_high_older_than (customer : string) (cutoff : Z)
    (i : issue) : bool :=
  String.eqb (customer_id i) customer
  && String.eqb (severity i) "High"
  && String.eqb (status i) "Open"
  && (created_at i <? cutoff).

(** [SELECT COUNT( * ) FROM issues WHERE customer_id = ? AND
     severity = 'High' AND status = 'Open' AND created_at < ?] *)
Definition count_open_high_older_than (c : conn) (customer : string)
    (cutoff : Z) : Z :=
  Z.of_nat (List.length
    (filter (open_high_older_than customer cutoff) (issues c))).

(** Insertion of a row among rows already ordered by timestamp, after
    the rows that are not later. *)
Fixpoint insert_by_timestamp (m : conversation) (l : list conversation)
    : list conversation :=
  match l with
  | [] => [m]
  | x :: r =>
      if timestamp m <? timestamp x then m :: x :: r
      else x :: insert_by_timestamp m r
  end.

Definition order_by_timestamp (l : list conversation) : list conversation :=
  fold_left (fun acc m => insert_by_timestamp m acc) l [].

(** [SELECT message, sender FROM conversations WHERE issue_id = ?
     ORDER BY timestamp] *)
Definition list_messages (c : conn) (issue : Z) : list (string * string) :=
  map (fun m => (message m, sender m))
    (order_by_timestamp
       (filter (fun m => issue_id m =? issue) (conversations c))).

End Store.

(** [init_db]: a fresh store holding the three sample issues. *)
Definition init_db : Store.conn :=
  {| Store.issues :=
       [ Store.Build_issue 1 "CUST001" "Login failure"
           (Datetime.datetime 2025 7 11 10 0 0) "High" "Open" "PROD001" None;
         Store.Build_issue 2 "CUST001" "Payment issue"
           (Datetime.datetime 2025 7 12 8 0 0) "Normal" "Open" "PROD002" None;
         Store.Build_issue 3 "CUST002" "UI glitch"
           (Datetime.datetime 2025 7 10 15 0 0) "Low" "Resolved" "PROD001"
           (Some "Restart the application") ];
     Store.conversations := [] |}.

(** ** Issue analysis *)

(** The line feed and the double quote, as one-character texts. *)
Definition nl : string := String "010"%char "".
Definition dq : string := String Py.dquote "".

Definition no_resolution : string := "No resolution provided".

(** One element of the [similar_issues] comprehension:
    [{'description': desc, 'resolution': res if res else '...'}] *)
Definition similar_entry (row : string * option string) : value :=
  let '(desc, res) := row in
  VDict [ ("description", VStr desc);
          ("resolution",
           VStr (match res with
                 | Some r => if negb (String.eqb r "") then r else no_resolution
                 | None => no_resolution
                 end)) ].

(** [analyze_issue]; [now] is the reading of [datetime.now()]. *)
Definition analyze_issue (now : Z)
    (issue_description customer_id product_id : string) (conn : Store.conn)
    : string * dict :=
  let past_issues := Store.count_issues conn customer_id in
  let similar_issues := Store.find_resolved conn product_id in
  let severity := classify issue_description in
  let threshold := now - Datetime.hours 24 in
  let critical_issues :=
    0 <? Store.count_open_high_older_than conn customer_id threshold in
  let analysis :=
    [ ("past_issues_count", VInt past_issues);
      ("similar_issues", VList (map similar_entry similar_issues));
      ("severity", VStr severity);
      ("has_critical_issues", VBool critical_issues) ] in
  (severity, analysis).

(** An argument at a call of [analyze_issue]. *)
Inductive argument : Type :=
| ArgStr (s : string)
| ArgConn (c : Store.conn).

(** A call [analyze_issue( args )]: the function has four positional
    parameters, none with a default, so any other number of arguments is a
    [TypeError]; with four, an argument of the wrong kind fails at the
    first statement that uses it. *)
Definition call_analyze_issue (now : Z) (args : list argument)
    : result (string * dict) :=
  match args with
  | [a1; a2; a3; a4] =>
      match a4, a2, a3, a1 with
      | ArgConn conn, ArgStr customer_id, ArgStr product_id,
        ArgStr issue_description =>
          Return (analyze_issue now issue_description customer_id product_id conn)
      | ArgStr _, _, _, _ =>
          (* conn.cursor() on a text *)
          Raise AttributeError
      | ArgConn _, ArgConn _, _, _ | ArgConn _, ArgStr _, ArgConn _, _ =>
          (* a connection bound as a query parameter *)
          Raise Sqlite3Error
      | ArgConn _, ArgStr _, ArgStr _, ArgConn _ =>
          (* issue_description.lower() on a connection *)
          Raise AttributeError
      end
  | _ =>
      (* missing or surplus positional arguments *)
      Raise TypeError
  end.

(** ** Message template *)

Definition critical_notice : string :=
  "Note: Critical issues detected that need urgent attention.".

Definition more_details : string := "Please provide more details.".

(** [generate_template]: the replacement fields of the f-string are
    evaluated from left to right, then the text is put together. *)
Definition generate_template (issue_description : string) (analysis : dict)
    : result string :=
  severity <- Py.getitem analysis "severity" ;;
  past_issues_count <- Py.getitem analysis "past_issues_count" ;;
  has_critical_issues <- Py.getitem analysis "has_critical_issues" ;;
  let notice := if Py.truthy has_critical_issues then critical_notice else "" in
  similar_issues <- Py.getitem analysis "similar_issues" ;;
  step <- (if Py.truthy similar_issues then
             similar_issues <- Py.getitem analysis "similar_issues" ;;
             first <- Py.subscript_0 similar_issues ;;
             resolution <- Py.subscript_key first "resolution" ;;
             Return (Py.str resolution)
           else Return more_details) ;;
  Return (Text.join
    [ nl;
      "Dear Customer,"; nl;
      nl;
      "Thank you for reaching out regarding: "; dq; issue_description; dq; "."; nl;
      nl;
      "Based on our analysis:"; nl;
      "- Issue Severity: "; Py.str severity; nl;
      "- Past Issues: "; Py.str past_issues_count; " previous issues"; nl;
      "- "; notice; nl;
      nl;
      "Recommended Steps:"; nl;
      "1. "; step; nl;
      nl;
      "Best regards,"; nl;
      "Support Team"; nl ]).

(** ** Conversation summary *)

(** The text one message adds to the summary. *)
Definition summary_line (row : string * string) : string :=
  let '(msg, sender) := row in
  "- " ++ sender ++ ": " ++ Text.take 50 msg ++ "..." ++ nl.

Definition summarize_conversation (issue_id : Z) (conn : Store.conn)
    : string :=
  let messages := Store.list_messages conn issue_id in
  fold_left (fun summary row => summary ++ summary_line row) messages
    ("Conversation Summary:" ++ nl).

(** ** The simulated API endpoint *)

Module Request.

(** The [data] of a request: each key is present or not. *)
Record t : Type := {
  issue_description : option string;
  customer_id : option string;
  product_id : option string;
  analysis : option dict;
  issue_id : option Z
}.

(** [data.get(key, default)] *)
Definition get {A : Type} (field : option A) (default : A) : A :=
  match field with
  | Some v => v
  | None => default
  end.

Definition empty : t := Build_t None None None None None.

End Request.

(** [api_endpoint]; [start_time] and [end_time] are the two readings of
    [time.time()] and [now] is the reading of [datetime.now()]. *)
Definition api_endpoint (start_time end_time : float) (now : Z)
    (endpoint : string) (data : Request.t) : result dict :=
  let response := [ ("status", VStr "success"); ("data", VDict []) ] in
  response <-
    (if String.eqb endpoint "/analyze_issue" then
       let conn := init_db in
       r <- call_analyze_issue now
              [ ArgStr (Request.get (Request.issue_description data) "");
                ArgStr (Request.get (Request.customer_id data) "");
                ArgStr (Request.get (Request.product_id data) "") ] ;;
       let '(severity, analysis) := r in
       Return (Py.setitem "data"
                 (VDict [ ("severity", VStr severity);
                          ("analysis", VDict analysis) ]) response)
     else if String.eqb endpoint "/generate_template" then
       template <- generate_template
                     (Request.get (Request.issue_description data) "")
                     (Request.get (Request.analysis data) []) ;;
       Return (Py.setitem "data" (VDict [ ("template", VStr template) ]) response)
     else if String.eqb endpoint "/summarize" then
       let conn := init_db in
       Return (Py.setitem "data"
                 (VDict [ ("summary",
                           VStr (summarize_conversation
                                   (Request.get (Request.issue_id data) 0) conn)) ])
                 response)
     else Return response) ;;
  let elapsed_time := PrimFloat.sub end_time start_time in
  if PrimFloat.ltb 15 elapsed_time then
    Return (Py.setitem "error" (VStr "Response time exceeded 15 seconds")
              (Py.setitem "status" (VStr "error") response))
  else Return response.

(** ** The Streamlit page *)

Module Writes.

(** The id an [AUTOINCREMENT] key gives the next row: one more than the
    largest id of the table, rows being never deleted; 1 in an empty
    table. *)
Definition next_id (c : Store.conn) : Z :=
  fold_right Z.max 0 (map Store.id (Store.issues c)) + 1.

(** [INSERT INTO issues (customer_id, issue_description, created_at,
     severity, status, product_id, resolution) VALUES (?, ?, ?, ?, ?, ?, ?)]
    followed by [c.lastrowid]. *)
Definition insert_issue (c : Store.conn)
    (customer_id issue_description : string) (created_at : Z)
    (severity status product_id : string) (resolution : option string)
    : Z * Store.conn :=
  let lastrowid := next_id c in
  (lastrowid,
   {| Store.issues :=
        (Store.issues c ++
         [ Store.Build_issue lastrowid customer_id issue_description
             created_at severity status product_id resolution ])%list;
      Store.conversations := Store.conversations c |}).

(** [INSERT INTO conversations (issue_id, message, sender, timestamp)
     VALUES (?, ?, ?, ?)] *)
Definition insert_conversation (c : Store.conn) (issue_id : Z)
    (message sender : string) (timestamp : Z) : Store.conn :=
  {| Store.issues := Store.issues c;
     Store.conversations :=
       (Store.conversations c ++
        [ Store.Build_conversation issue_id message sender timestamp ])%list |}.

End Writes.

Module Ui.

(** The calls to Streamlit, in the order the page makes them. *)
Inductive event : Type :=
| Title (text : string)
| Header (text : string)
| Subheader (text : string)
| Write (text : string)
| Warning (text : string)
| Text (text : string)
| Form (key : string)
| TextInput (label : string)
| TextArea (label : string) (value : option string) (height : option Z)
| FormSubmitButton (label : string).

End Ui.

(** The text under "Technical Architecture". *)
Definition architecture : string :=
  Text.join
    [ nl;
      "    - **Frontend**: Streamlit for UI"; nl;
      "    - **Backend**: Python with SQLite (replace with MySQL for production)"; nl;
      "    - **API**: RESTful endpoints for issue analysis, template generation, and summarization"; nl;
      "    - **Cloud**: Deployable on AWS EC2/Elastic Beanstalk"; nl;
      "    - **Security**: HTTPS, data encryption"; nl;
      "    - **Scalability**: Horizontal scaling with AWS load balancers"; nl;
      "    - **Compliance**: GDPR-compliant data handling"; nl;
      "    " ].

(** What the page does once "Analyze Issue" is pressed, on the store
    [conn]: the analysis, the template, the two inserts and the summary.
    [now_analysis], [now_issue] and [now_message] are the three readings
    of [datetime.now()]. *)
Definition on_submit (conn : Store.conn)
    (customer_id product_id issue_description : string)
    (now_analysis now_issue now_message : Z)
    : result (list Ui.event * Store.conn) :=
  let '(severity, analysis) :=
    analyze_issue now_analysis issue_description customer_id product_id conn in
  past_issues_count <- Py.getitem analysis "past_issues_count" ;;
  has_critical_issues <- Py.getitem analysis "has_critical_issues" ;;
  let shown :=
    ([ Ui.Subheader "Issue Analysis";
       Ui.Write ("Severity: " ++ severity);
       Ui.Write ("Past Issues: " ++ Py.str past_issues_count) ]
     ++ (if Py.truthy has_critical_issues
         then [ Ui.Warning "Critical issues detected!" ] else []))%list in
  template <- generate_template issue_description analysis ;;
  let '(issue_id, conn) :=
    Writes.insert_issue conn customer_id issue_description now_issue
      severity "Open" product_id None in
  let conn :=
    Writes.insert_conversation conn issue_id issue_description "Customer"
      now_message in
  let summary := summarize_conversation issue_id conn in
  Return
    ((shown ++
      [ Ui.Subheader "Recommended Response";
        Ui.TextArea "Response Template" (Some template) (Some 200);
        Ui.Subheader "Conversation Summary";
        Ui.Text summary ])%list,
     conn).

(** [main]: one run of the page.  The arguments are what the widgets of
    the form return and the readings of [datetime.now()]. *)
Definition main (customer_id product_id issue_description : string)
    (submit_button : bool) (now_analysis now_issue now_message : Z)
    : result (list Ui.event * Store.conn) :=
  let conn := init_db in
  let form :=
    [ Ui.Title "Support Copilot for Issue Lifecycle Management";
      Ui.Header "New Issue";
      Ui.Form "issue_form";
      Ui.TextInput "Customer ID";
      Ui.TextInput "Product ID";
      Ui.TextArea "Issue Description" None None;
      Ui.FormSubmitButton "Analyze Issue" ] in
  let closing :=
    [ Ui.Header "Technical Architecture"; Ui.Write architecture ] in
  if submit_button then
    r <- on_submit conn customer_id product_id issue_description
           now_analysis now_issue now_message ;;
    let '(shown, conn) := r in
    Return ((form ++ shown ++ closing)%list, conn)
  else Return ((form ++ closing)%list, conn).

(** ** Vocabulary of the properties *)

(** [w] occurs in [s]. *)
Definition occurs (w s : string) : Prop :=
  exists a b : string, s = a ++ w ++ b.

(** The words listed under a severity in [keywords]. *)
Definition keywords_of (sev : string) : list string :=
  match find (fun entry => String.eqb (fst entry) sev) keywords with
  | Some entry => snd entry
  | None => []
  end.

(** Some keyword of severity [sev] occurs in the description, whatever the
    case of its letters in the description. *)
Definition has_keyword (sev : string) (description : string) : Prop :=
  exists word, In word (keywords_of sev) /\ occurs word (Text.lower description).

(** The end of the template, from the heading of the steps on. *)
Definition steps_section (step : string) : string :=
  Text.join [ "Recommended Steps:"; nl; "1. "; step; nl; nl;
              "Best regards,"; nl; "Support Team"; nl ].

(** The start of the template, up to the line of the past issues. *)
Definition findings_section (description severity count : string) : string :=
  Text.join [ nl; "Dear Customer,"; nl; nl;
              "Thank you for reaching out regarding: "; dq; description; dq;
              "."; nl; nl;
              "Based on our analysis:"; nl;
              "- Issue Severity: "; severity; nl;
              "- Past Issues: "; count; " previous issues" ].

(** The fifth replacement field: the step recommended for the value held
    under [similar_issues]. *)
Definition recommended (similar : value) : result string :=
  if Py.truthy similar then
    first <- Py.subscript_0 similar ;;
    resolution <- Py.subscript_key first "resolution" ;;
    Return (Py.str resolution)
  else Return more_details.

(** An analysis as [analyze_issue] lays it out, used at concrete inputs. *)
Definition sample_analysis (critical : bool) (similar : list value) : dict :=
  [ ("past_issues_count", VInt 0);
    ("similar_issues", VList similar);
    ("severity", VStr "High");
    ("has_critical_issues", VBool critical) ].

(** A text of [n] times the character [c]. *)
Fixpoint replicate (n : nat) (c : ascii) : string :=
  match n with
  | O => ""
  | S k => String c (replicate k c)
  end.

(** The three endpoints the dispatcher knows. *)
Definition known_endpoint (endpoint : string) : Prop :=
  endpoint = "/analyze_issue" \/ endpoint = "/generate_template"
  \/ endpoint = "/summarize".

(** No conversation row refers to an issue id the table of issues has not
    given out yet. *)
Definition conversations_bounded (c : Store.conn) : Prop :=
  forall m, In m (Store.conversations c) ->
            Store.issue_id m < Writes.next_id c.

(** The rows are in non-decreasing order of timestamp. *)
Definition by_timestamp (a b : Store.conversation) : Prop :=
  Store.timestamp a <= Store.timestamp b.

(** The row a submission adds to the issues of [conn]. *)
Definition filed_issue (conn : Store.conn)
    (customer product description : string) (created : Z) : Store.issue :=
  Store.Build_issue (Writes.next_id conn) customer description created
    (classify description) "Open" product None.

(** The row a submission adds to the conversations of [conn]. *)
Definition filed_message (conn : Store.conn) (description : string)
    (sent : Z) : Store.conversation :=
  Store.Build_conversation (Writes.next_id conn) description "Customer" sent.

(** The response of the endpoint for a payload, by the time it took. *)
Definition timed_response (start_time end_time : float) (payload : dict)
    : dict :=
  if PrimFloat.ltb 15 (PrimFloat.sub end_time start_time)
  then [ ("status", VStr "error"); ("data", VDict payload);
         ("error", VStr "Response time exceeded 15 seconds") ]
  else [ ("status", VStr "success"); ("data", VDict payload) ].

(** The store once a submission has been filed in [conn]. *)
Definition filed (conn : Store.conn) (customer product description : string)
    (created sent : Z) : Store.conn :=
  {| Store.issues :=
       (Store.issues conn
        ++ [filed_issue conn customer product description created])%list;
     Store.conversations :=
       (Store.conversations conn
        ++ [filed_message conn description sent])%list |}.

(** * Properties *)

(** ** Text *)

Section TextFacts.

Local Open Scope string_scope.

Lemma prefix_iff (w s : string) :
  String.prefix w s = true <-> exists b, s = w ++ b.
Proof.
  revert s; induction w as [|c w IH]; intros s.
  - split; [intros _; now exists s | now destruct s].
  - destruct s as [|c' s]; simpl.
    + split; [discriminate | intros [b Hb]; discriminate].
    + destruct (ascii_dec c c') as [->|Hne].
      * rewrite IH. split; intros [b Hb]; exists b.
        -- now rewrite Hb.
        -- now injection Hb.
      * split; [discriminate | intros [b Hb]; injection Hb; congruence].
Qed.

Lemma contains_unfold (w s : string) :
  Text.contains w s =
    if String.prefix w s then true
    else match s with
         | EmptyString => false
         | String _ r => Text.contains w r
         end.
Proof. destruct s; reflexivity. Qed.

Lemma prefix_occurs (w s : string) :
  String.prefix w s = true -> occurs w s.
Proof.
  intros Hp. apply prefix_iff in Hp. destruct Hp as [b Hb]. now exists "", b.
Qed.

Lemma contains_iff (w s : string) :
  Text.contains w s = true <-> occurs w s.
Proof.
  induction s as [|c s IH]; rewrite contains_unfold.
  - destruct (String.prefix w "") eqn:Hp.
    + split; [intros _; now apply prefix_occurs | reflexivity].
    + split; [discriminate |].
      intros [a [b Hab]]. destruct a; [|discriminate].
      assert (String.prefix w "" = true) as Hp'
        by (apply prefix_iff; now exists b).
      congruence.
  - destruct (String.prefix w (String c s)) eqn:Hp.
    + split; [intros _; now apply prefix_occurs | reflexivity].
    + rewrite IH. split.
      * intros [a [b Hab]]. exists (String c a), b. simpl. now rewrite Hab.
      * intros [a [b Hab]]. destruct a as [|c' a].
        -- assert (String.prefix w (String c s) = true) as Hp'
             by (apply prefix_iff; now exists b).
           congruence.
        -- simpl in Hab. injection Hab as _ Hs. now exists a, b.
Qed.

Lemma lower_char_idempotent (c : ascii) :
  Text.lower_char (Text.lower_char c) = Text.lower_char c.
Proof.
  destruct c as [[] [] [] [] [] [] [] []]; reflexivity.
Qed.

Lemma lower_idempotent (s : string) :
  Text.lower (Text.lower s) = Text.lower s.
Proof.
  induction s as [|c s IH]; simpl; [reflexivity|].
  now rewrite lower_char_idempotent, IH.
Qed.

Lemma append_assoc (a b c : string) : (a ++ b) ++ c = a ++ b ++ c.
Proof. induction a as [|x a IH]; simpl; congruence. Qed.

Lemma append_nil_r (a : string) : a ++ "" = a.
Proof. induction a as [|x a IH]; simpl; congruence. Qed.

Lemma length_append (a b : string) :
  String.length (a ++ b) = (String.length a + String.length b)%nat.
Proof. induction a as [|x a IH]; simpl; congruence. Qed.

End TextFacts.

(** ** Severity classification *)

Lemma has_keyword_iff (sev description : string) :
  has_keyword sev description <->
  any_word_in (keywords_of sev) (Text.lower description) = true.
Proof.
  unfold has_keyword, any_word_in. rewrite existsb_exists.
  split; intros [w [Hin Hw]]; exists w; split; trivial;
    now apply contains_iff.
Qed.

Lemma has_keyword_dec (sev description : string) :
  {has_keyword sev description} + {~ has_keyword sev description}.
Proof.
  destruct (any_word_in (keywords_of sev) (Text.lower description)) eqn:E.
  - left. now apply has_keyword_iff.
  - right. rewrite has_keyword_iff. congruence.
Qed.

(** The scan as a cascade over the three severities in dict order. *)
Lemma classify_cascade (description : string) :
  classify description =
    if any_word_in (keywords_of "High") (Text.lower description) then "High"
    else if any_word_in (keywords_of "Normal") (Text.lower description) then "Normal"
    else if any_word_in (keywords_of "Low") (Text.lower description) then "Low"
    else "Normal".
Proof. reflexivity. Qed.

(** C1. A description with a High keyword and a Low keyword is classified
    High; one with Low keywords only is classified Low; one with no keyword,
    the empty description included, is classified Normal.  Keywords are
    matched as substrings of the lower-cased description, the severities
    are tried in the order High, Normal, Low and the first one with a match
    is returned. *)
Theorem classify_priority (description : string) :
  (has_keyword "High" description -> has_keyword "Low" description ->
   classify description = "High")
  /\ (~ has_keyword "High" description -> ~ has_keyword "Normal" description ->
      has_keyword "Low" description -> classify description = "Low")
  /\ (~ has_keyword "High" description -> ~ has_keyword "Normal" description ->
      ~ has_keyword "Low" description -> classify description = "Normal")
  /\ classify "" = "Normal"
  /\ (has_keyword "High" description -> classify description = "High")
  /\ (~ has_keyword "High" description -> has_keyword "Normal" description ->
      classify description = "Normal")
  /\ classify (Text.lower description) = classify description.
Proof.
  rewrite !has_keyword_iff, classify_cascade.
  destruct (any_word_in (keywords_of "High") (Text.lower description)) eqn:EH;
  destruct (any_word_in (keywords_of "Normal") (Text.lower description)) eqn:EN;
  destruct (any_word_in (keywords_of "Low") (Text.lower description)) eqn:EL;
  repeat split; intros; try reflexivity; try congruence;
  unfold classify; rewrite lower_idempotent; fold (classify description);
  rewrite classify_cascade, EH, ?EN, ?EL; reflexivity.
Qed.

Lemma classify_priority_witness :
  classify "Urgent: minor glitch" = "High"
  /\ classify "UI glitch" = "Low"
  /\ classify "Hello" = "Normal"
  /\ classify "Payment ISSUE" = "Normal".
Proof.
  split; [|split; [|split]].
  - apply (proj1 (classify_priority "Urgent: minor glitch"));
      apply has_keyword_iff; reflexivity.
  - apply (proj1 (proj2 (classify_priority "UI glitch")));
      rewrite has_keyword_iff; vm_compute; congruence.
  - apply (proj1 (proj2 (proj2 (classify_priority "Hello"))));
      rewrite has_keyword_iff; vm_compute; congruence.
  - apply (proj1 (proj2 (proj2 (proj2 (proj2 (proj2
             (classify_priority "Payment ISSUE")))))));
      rewrite has_keyword_iff; vm_compute; congruence.
Defined.

(** ** Issue analysis *)

Lemma count_positive_iff {A : Type} (f : A -> bool) (l : list A) :
  (0 <? Z.of_nat (List.length (filter f l))) = true <->
  exists x, In x l /\ f x = true.
Proof.
  rewrite Z.ltb_lt. split.
  - intros Hpos. destruct (filter f l) as [|x r] eqn:E.
    + simpl in Hpos. lia.
    + exists x. apply filter_In. rewrite E. now left.
  - intros [x Hx]. apply filter_In in Hx.
    destruct (filter f l); [contradiction | simpl; lia].
Qed.

Lemma open_high_older_than_iff (customer : string) (cutoff : Z)
    (i : Store.issue) :
  Store.open_high_older_than customer cutoff i = true <->
  Store.customer_id i = customer /\ Store.severity i = "High"
  /\ Store.status i = "Open" /\ Store.created_at i < cutoff.
Proof.
  unfold Store.open_high_older_than.
  rewrite !andb_true_iff, !String.eqb_eq, Z.ltb_lt. tauto.
Qed.

(** C2. The [has_critical_issues] entry of the analysis is true exactly
    when the store holds an issue of the customer with severity High and
    status Open created strictly before [now] minus 24 hours.  An issue
    created exactly 24 hours before [now] does not count; one created 24
    hours and one second before [now] does. *)
Theorem escalation_boundary (now : Z)
    (description customer product : string) (conn : Store.conn) :
  exists flag : bool,
    Py.lookup "has_critical_issues"
      (snd (analyze_issue now description customer product conn))
      = Some (VBool flag)
    /\ (flag = true <->
        exists i, In i (Store.issues conn)
          /\ Store.customer_id i = customer
          /\ Store.severity i = "High"
          /\ Store.status i = "Open"
          /\ Store.created_at i < now - 24 * 3600 * 1000000)
    /\ ((forall i, In i (Store.issues conn) ->
           Store.customer_id i = customer -> Store.severity i = "High" ->
           Store.status i = "Open" ->
           Store.created_at i = now - 24 * 3600 * 1000000) ->
        flag = false)
    /\ ((exists i, In i (Store.issues conn)
           /\ Store.customer_id i = customer
           /\ Store.severity i = "High"
           /\ Store.status i = "Open"
           /\ Store.created_at i = now - 24 * 3600 * 1000000 - 1000000) ->
        flag = true).
Proof.
  eexists. split; [reflexivity|].
  unfold Store.count_open_high_older_than.
  assert (Hiff : forall cutoff,
    (0 <? Z.of_nat (List.length
       (filter (Store.open_high_older_than customer cutoff)
          (Store.issues conn)))) = true <->
    exists i, In i (Store.issues conn) /\ Store.customer_id i = customer
      /\ Store.severity i = "High" /\ Store.status i = "Open"
      /\ Store.created_at i < cutoff).
  { intros cutoff. rewrite count_positive_iff.
    split; intros [i [Hin Hi]]; exists i; split; trivial;
      now apply open_high_older_than_iff. }
  replace (now - Datetime.hours 24) with (now - 24 * 3600 * 1000000)
    by (unfold Datetime.hours, Datetime.seconds; lia).
  split; [apply Hiff|]. split.
  - intros Hall. apply not_true_is_false. intros Hflag.
    apply Hiff in Hflag. destruct Hflag as [i [Hin [Hc [Hs [Ho Hlt]]]]].
    specialize (Hall i Hin Hc Hs Ho). lia.
  - intros [i [Hin [Hc [Hs [Ho Hat]]]]]. apply Hiff.
    exists i. repeat split; trivial. lia.
Qed.

Lemma escalation_boundary_witness :
  Py.lookup "has_critical_issues"
    (snd (analyze_issue (Datetime.datetime 2025 7 12 10 0 0)
            "Login failure" "CUST001" "PROD001" init_db))
    = Some (VBool false)
  /\ Py.lookup "has_critical_issues"
       (snd (analyze_issue (Datetime.datetime 2025 7 12 10 0 1)
               "Login failure" "CUST001" "PROD001" init_db))
       = Some (VBool true).
Proof.
  split.
  - destruct (escalation_boundary (Datetime.datetime 2025 7 12 10 0 0)
                "Login failure" "CUST001" "PROD001" init_db)
      as [flag [Hflag [_ [Hexact _]]]].
    rewrite Hflag. rewrite Hexact; [reflexivity|].
    intros i [<-|[<-|[<-|[]]]]; vm_compute; congruence.
  - destruct (escalation_boundary (Datetime.datetime 2025 7 12 10 0 1)
                "Login failure" "CUST001" "PROD001" init_db)
      as [flag [Hflag [_ [_ Hpast]]]].
    rewrite Hflag. rewrite Hpast; [reflexivity|].
    eexists. split; [left; reflexivity|]. vm_compute. repeat split; reflexivity.
Defined.

(** C6. The [similar_issues] entry of the analysis lists the resolved
    issues of the product in the order the store returns them; each entry
    carries the stored resolution when it is a non-empty text and the
    text "No resolution provided" when it is empty or absent. *)
Theorem similar_issues_in_store_order (now : Z)
    (description customer product : string) (conn : Store.conn) :
  exists out : list value,
    Py.lookup "similar_issues"
      (snd (analyze_issue now description customer product conn))
      = Some (VList out)
    /\ List.length out = List.length (Store.find_resolved conn product)
    /\ forall (k : nat) (desc : string) (res : option string),
         nth_error (Store.find_resolved conn product) k = Some (desc, res) ->
         exists text,
           nth_error out k
             = Some (VDict [("description", VStr desc);
                            ("resolution", VStr text)])
           /\ (forall r, res = Some r -> r <> "" -> text = r)
           /\ (res = None \/ res = Some "" ->
               text = "No resolution provided").
Proof.
  eexists. split; [reflexivity|]. split; [apply length_map|].
  intros k desc res Hk.
  rewrite nth_error_map, Hk. simpl.
  eexists. split; [reflexivity|]. split.
  - intros r -> Hr. apply String.eqb_neq in Hr. now rewrite Hr.
  - intros [->| ->]; reflexivity.
Qed.

Lemma similar_issues_in_store_order_witness :
  Py.lookup "similar_issues"
    (snd (analyze_issue 0 "UI glitch" "CUST003" "PROD001" init_db))
    = Some (VList [VDict [("description", VStr "UI glitch");
                          ("resolution", VStr "Restart the application")]]).
Proof.
  destruct (similar_issues_in_store_order 0 "UI glitch" "CUST003" "PROD001"
              init_db) as [out [Hout [Hlen Hnth]]].
  rewrite Hout. do 2 f_equal.
  destruct (Hnth 0%nat "UI glitch" (Some "Restart the application")
              eq_refl) as [text [H0 [Htext _]]].
  rewrite (Htext _ eq_refl) in H0 by discriminate.
  destruct out as [|x [|y out]]; try discriminate.
  simpl in H0. now injection H0 as ->.
Defined.

(** C9. The severity returned first by [analyze_issue] is the one stored
    under [severity] in the analysis returned with it; it is the severity
    the keyword scan gives the description. *)
Theorem severity_matches_analysis (now : Z)
    (description customer product : string) (conn : Store.conn) :
  Py.lookup "severity"
    (snd (analyze_issue now description customer product conn))
  = Some (VStr (fst (analyze_issue now description customer product conn)))
  /\ fst (analyze_issue now description customer product conn)
     = classify description.
Proof.
  unfold analyze_issue. cbn [fst snd]. split; [|reflexivity].
  cbn [Py.lookup String.eqb Ascii.eqb Bool.eqb]. reflexivity.
Qed.

(** ** Message template *)

Lemma lines_from_skip (before rest cur : string) :
  exists pre, Text.lines_from cur (before ++ nl ++ rest)
              = (pre ++ Text.lines_from "" rest)%list.
Proof.
  revert cur. induction before as [|c before IH]; intros cur; simpl.
  - now exists [cur].
  - destruct (Ascii.eqb c "010").
    + destruct (IH "") as [pre Hpre]. exists (cur :: pre).
      simpl. now rewrite <- Hpre.
    + apply IH.
Qed.

Lemma bullet_line_in_lines (before after : string) :
  In "- " (Text.lines (before ++ nl ++ "- " ++ nl ++ after)).
Proof.
  unfold Text.lines.
  destruct (lines_from_skip before ("- " ++ nl ++ after) "") as [pre ->].
  apply in_or_app. right. simpl. now left.
Qed.

(** The template in three parts: what precedes the notice, the line of the
    notice, and the steps. *)
Lemma template_parts (description severity count notice step : string) :
  Text.join
    [ nl;
      "Dear Customer,"; nl;
      nl;
      "Thank you for reaching out regarding: "; dq; description; dq; "."; nl;
      nl;
      "Based on our analysis:"; nl;
      "- Issue Severity: "; severity; nl;
      "- Past Issues: "; count; " previous issues"; nl;
      "- "; notice; nl;
      nl;
      "Recommended Steps:"; nl;
      "1. "; step; nl;
      nl;
      "Best regards,"; nl;
      "Support Team"; nl ]
  = findings_section description severity count
    ++ nl ++ "- " ++ notice ++ nl ++ nl ++ steps_section step.
Proof.
  unfold findings_section, steps_section. cbn [Text.join].
  rewrite !append_assoc. reflexivity.
Qed.

(** What [generate_template] returns once the four entries are there. *)
Lemma generate_template_present (description : string) (analysis : dict)
    (severity count critical similar : value) :
  Py.lookup "severity" analysis = Some severity ->
  Py.lookup "past_issues_count" analysis = Some count ->
  Py.lookup "has_critical_issues" analysis = Some critical ->
  Py.lookup "similar_issues" analysis = Some similar ->
  generate_template description analysis =
    step <- recommended similar ;;
    Return (findings_section description (Py.str severity) (Py.str count)
            ++ nl ++ "- "
            ++ (if Py.truthy critical then critical_notice else "")
            ++ nl ++ nl ++ steps_section step).
Proof.
  intros Hsev Hcnt Hcrit Hsim.
  unfold generate_template, recommended, Py.getitem.
  rewrite Hsev, Hcnt, Hcrit, Hsim. cbn [bind].
  destruct (Py.truthy similar); cbn [bind].
  - destruct (Py.subscript_0 similar) as [first|e]; cbn [bind]; trivial.
    destruct (Py.subscript_key first "resolution") as [r|e]; cbn [bind];
      trivial.
    now rewrite template_parts.
  - now rewrite template_parts.
Qed.

(** [generate_template] returns a text only when the four entries are
    there. *)
Lemma generate_template_returns (description : string) (analysis : dict)
    (text : string) :
  generate_template description analysis = Return text ->
  exists severity count critical similar,
    Py.lookup "severity" analysis = Some severity
    /\ Py.lookup "past_issues_count" analysis = Some count
    /\ Py.lookup "has_critical_issues" analysis = Some critical
    /\ Py.lookup "similar_issues" analysis = Some similar.
Proof.
  unfold generate_template, Py.getitem.
  destruct (Py.lookup "severity" analysis) as [sev|]; [|discriminate].
  destruct (Py.lookup "past_issues_count" analysis) as [cnt|]; [|discriminate].
  destruct (Py.lookup "has_critical_issues" analysis) as [crit|];
    [|discriminate].
  destruct (Py.lookup "similar_issues" analysis) as [sim|]; [|discriminate].
  intros _. now exists sev, cnt, crit, sim.
Qed.

(** C3, as the code has it.  When [has_critical_issues] is false the line
    of the notice is not left out: the template keeps a line made of the
    bullet alone, ["- "], between the line of the past issues and the empty
    line before the steps.  When it is true that line carries the notice. *)
Theorem notice_line_kept (description : string) (analysis : dict)
    (critical : value) (text : string) :
  Py.lookup "has_critical_issues" analysis = Some critical ->
  generate_template description analysis = Return text ->
  exists severity count step,
    (Py.truthy critical = false ->
       text = findings_section description severity count
              ++ nl ++ "- " ++ nl ++ nl ++ steps_section step
       /\ In "- " (Text.lines text))
    /\ (Py.truthy critical = true ->
       text = findings_section description severity count
              ++ nl ++ "- " ++ critical_notice ++ nl ++ nl
              ++ steps_section step).
Proof.
  intros Hcrit Hret.
  destruct (generate_template_returns _ _ _ Hret)
    as [sev [cnt [crit [sim [Hsev [Hcnt [Hcrit' Hsim]]]]]]].
  rewrite Hcrit in Hcrit'. injection Hcrit' as <-.
  rewrite (generate_template_present _ _ _ _ _ _ Hsev Hcnt Hcrit Hsim) in Hret.
  destruct (recommended sim) as [step|e]; cbn [bind] in Hret; [|discriminate].
  injection Hret as <-.
  exists (Py.str sev), (Py.str cnt), step.
  split; intros ->.
  - split; [reflexivity|].
    exact (bullet_line_in_lines
             (findings_section description (Py.str sev) (Py.str cnt))
             (nl ++ steps_section step)).
  - reflexivity.
Qed.

Lemma notice_line_kept_witness :
  exists text,
    generate_template "Login failure" (sample_analysis false []) = Return text
    /\ In "- " (Text.lines text).
Proof.
  eexists. split; [reflexivity|].
  destruct (notice_line_kept "Login failure" (sample_analysis false [])
              (VBool false) _ eq_refl eq_refl)
    as [severity [count [step [Hfalse _]]]].
  exact (proj2 (Hfalse eq_refl)).
Defined.

(** C4. The step shown under "Recommended Steps:" is the resolution of the
    first entry of [similar_issues] when there is one, and the text
    "Please provide more details." when [similar_issues] is empty. *)
Theorem recommended_step (description : string) (analysis : dict)
    (severity count critical : value) (similar : list value) :
  Py.lookup "severity" analysis = Some severity ->
  Py.lookup "past_issues_count" analysis = Some count ->
  Py.lookup "has_critical_issues" analysis = Some critical ->
  Py.lookup "similar_issues" analysis = Some (VList similar) ->
  exists before,
    (similar = [] ->
       generate_template description analysis
         = Return (before ++ steps_section "Please provide more details."))
    /\ (forall entry rest r,
          similar = VDict entry :: rest ->
          Py.lookup "resolution" entry = Some (VStr r) ->
          generate_template description analysis
            = Return (before ++ steps_section r)).
Proof.
  intros Hsev Hcnt Hcrit Hsim.
  exists (findings_section description (Py.str severity) (Py.str count)
          ++ nl ++ "- "
          ++ (if Py.truthy critical then critical_notice else "")
          ++ nl ++ nl).
  rewrite (generate_template_present _ _ _ _ _ _ Hsev Hcnt Hcrit Hsim).
  split.
  - intros ->. cbn [recommended Py.truthy bind].
    now rewrite !append_assoc.
  - intros entry rest r -> Hr.
    unfold recommended, Py.subscript_0, Py.subscript_key, Py.getitem.
    cbn [Py.truthy bind]. rewrite Hr. cbn [bind Py.str].
    now rewrite !append_assoc.
Qed.

Lemma recommended_step_witness :
  (exists before,
     generate_template "UI glitch"
       (sample_analysis false
          [VDict [("description", VStr "UI glitch");
                  ("resolution", VStr "Restart the application")]])
     = Return (before ++ steps_section "Restart the application"))
  /\ (exists before,
        generate_template "Login failure" (sample_analysis false [])
        = Return (before ++ steps_section "Please provide more details.")).
Proof.
  split.
  - destruct (recommended_step "UI glitch"
                (sample_analysis false
                   [VDict [("description", VStr "UI glitch");
                           ("resolution", VStr "Restart the application")]])
                _ _ _ _ eq_refl eq_refl eq_refl eq_refl)
      as [before [_ Hfirst]].
    exists before. exact (Hfirst _ _ _ eq_refl eq_refl).
  - destruct (recommended_step "Login failure" (sample_analysis false [])
                _ _ _ _ eq_refl eq_refl eq_refl eq_refl)
      as [before [Hempty _]].
    exists before. exact (Hempty eq_refl).
Defined.

(** ** Conversation summary *)

Lemma take_short (n : nat) (s : string) :
  (String.length s <= n)%nat -> Text.take n s = s.
Proof.
  unfold Text.take. revert n. induction s as [|c s IH]; intros n Hn.
  - now destruct n.
  - destruct n as [|n]; simpl in *; [lia|]. rewrite IH; [reflexivity | lia].
Qed.

Lemma take_split (n : nat) (s : string) :
  exists rest, s = Text.take n s ++ rest
    /\ String.length (Text.take n s) = Nat.min n (String.length s).
Proof.
  unfold Text.take. revert n. induction s as [|c s IH]; intros n.
  - exists "". now destruct n.
  - destruct n as [|n]; simpl.
    + now exists (String c s).
    + destruct (IH n) as [rest [Hs Hlen]]. exists rest.
      split; [now rewrite <- Hs | now rewrite Hlen].
Qed.

Lemma fold_summary (rows : list (string * string)) (start : string) :
  fold_left (fun summary row => summary ++ summary_line row) rows start
  = start ++ Text.join (map summary_line rows).
Proof.
  revert start. induction rows as [|row rows IH]; intros start; simpl.
  - now rewrite append_nil_r.
  - now rewrite IH, append_assoc.
Qed.

Lemma insert_by_timestamp_In (m x : Store.conversation)
    (l : list Store.conversation) :
  In x (Store.insert_by_timestamp m l) <-> x = m \/ In x l.
Proof.
  induction l as [|y l IH]; simpl.
  - intuition congruence.
  - destruct (Store.timestamp m <? Store.timestamp y); simpl;
      rewrite ?IH; intuition congruence.
Qed.

Lemma order_by_timestamp_In (x : Store.conversation)
    (l : list Store.conversation) :
  In x (Store.order_by_timestamp l) <-> In x l.
Proof.
  unfold Store.order_by_timestamp.
  assert (H : forall acc,
    In x (fold_left (fun acc m => Store.insert_by_timestamp m acc) l acc)
    <-> In x l \/ In x acc).
  { induction l as [|m l IH]; intros acc; simpl.
    - tauto.
    - rewrite IH, insert_by_timestamp_In. intuition congruence. }
  rewrite H. simpl. tauto.
Qed.

(** C5. The summary is its heading followed by one line per message of the
    issue; the line of a message is "- ", the sender, ": ", the first 50
    characters of the message, "..." and a line feed.  The "..." is there
    whatever the length of the message: a message of at most 50 characters
    is shown whole and followed by "...", and a message of 1000 characters
    is cut to its first 50 characters followed by "...". *)
Theorem summary_truncation (issue_id : Z) (conn : Store.conn) :
  summarize_conversation issue_id conn
    = "Conversation Summary:" ++ nl
      ++ Text.join
           (map (fun row => "- " ++ snd row ++ ": " ++ Text.take 50 (fst row)
                            ++ "..." ++ nl)
              (Store.list_messages conn issue_id))
  /\ (forall m, In m (Store.conversations conn) ->
        Store.issue_id m = issue_id ->
        In (Store.message m, Store.sender m)
           (Store.list_messages conn issue_id))
  /\ (forall msg : string, (String.length msg <= 50)%nat ->
        Text.take 50 msg ++ "..." = msg ++ "...")
  /\ (forall msg : string, String.length msg = 1000%nat ->
        String.length (Text.take 50 msg) = 50%nat
        /\ exists rest, msg = Text.take 50 msg ++ rest
                        /\ String.length rest = 950%nat).
Proof.
  split; [|split; [|split]].
  - unfold summarize_conversation. rewrite fold_summary, append_assoc.
    do 3 f_equal. apply map_ext. now intros [msg sender].
  - intros m Hin Hid. unfold Store.list_messages.
    apply (in_map (fun m => (Store.message m, Store.sender m))).
    apply order_by_timestamp_In, filter_In. split; trivial.
    now apply Z.eqb_eq.
  - intros msg Hlen. now rewrite take_short.
  - intros msg Hlen. destruct (take_split 50 msg) as [rest [Hs Hl]].
    rewrite Hlen in Hl. change (Nat.min 50 1000) with 50%nat in Hl.
    split; trivial. exists rest. split; trivial.
    apply (f_equal String.length) in Hs.
    rewrite length_append, Hlen, Hl in Hs. lia.
Qed.

Lemma summary_truncation_witness :
  Text.take 50 "Cannot log in" ++ "..." = "Cannot log in..."
  /\ String.length (Text.take 50 (replicate 1000 "x")) = 50%nat.
Proof.
  split.
  - apply (proj1 (proj2 (proj2 (summary_truncation 0 init_db)))).
    simpl. lia.
  - apply (proj2 (proj2 (proj2 (summary_truncation 0 init_db)))).
    vm_compute. reflexivity.
Defined.

(** ** The simulated API endpoint *)

(** C7, as the code has it.  A "/generate_template" request with no
    [analysis] makes the endpoint pass the empty dict, and
    [generate_template] raises [KeyError] on its first entry, whatever the
    description; so does any analysis without a [severity] entry. *)
Theorem template_of_missing_analysis_raises (start_time end_time : float)
    (now : Z) (data : Request.t) :
  (Request.analysis data = None ->
   api_endpoint start_time end_time now "/generate_template" data
     = Raise (KeyError (VStr "severity")))
  /\ (forall description analysis,
        Py.lookup "severity" analysis = None ->
        generate_template description analysis
          = Raise (KeyError (VStr "severity"))).
Proof.
  split.
  - intros Hnone. unfold api_endpoint. rewrite Hnone. reflexivity.
  - intros description analysis Hnone.
    unfold generate_template, Py.getitem. now rewrite Hnone.
Qed.

Lemma template_of_missing_analysis_raises_witness :
  api_endpoint 0 1 0 "/generate_template"
    (Request.Build_t (Some "Login failure") None None None None)
  = Raise (KeyError (VStr "severity"))
  /\ generate_template "" [("past_issues_count", VInt 0)]
     = Raise (KeyError (VStr "severity")).
Proof.
  split.
  - apply (proj1 (template_of_missing_analysis_raises 0 1 0
                    (Request.Build_t (Some "Login failure") None None None
                       None))).
    reflexivity.
  - apply (proj2 (template_of_missing_analysis_raises 0 1 0 Request.empty)).
    reflexivity.
Defined.

(** C8, as the code has it.  The endpoint calls [analyze_issue] with three
    arguments, the connection it has just opened is not passed, and the
    call raises [TypeError]: no "/analyze_issue" request gets a response.
    A call with a number of arguments other than four always raises; the
    call with the connection as fourth argument returns the analysis. *)
Theorem analyze_issue_endpoint_raises (start_time end_time : float)
    (now : Z) (data : Request.t) :
  api_endpoint start_time end_time now "/analyze_issue" data = Raise TypeError
  /\ (forall args, List.length args <> 4%nat ->
        call_analyze_issue now args = Raise TypeError)
  /\ (forall description customer product conn,
        call_analyze_issue now
          [ArgStr description; ArgStr customer; ArgStr product; ArgConn conn]
        = Return (analyze_issue now description customer product conn)).
Proof.
  split; [|split].
  - unfold api_endpoint. cbn [String.eqb Ascii.eqb Bool.eqb].
    unfold call_analyze_issue. reflexivity.
  - intros args Hlen. unfold call_analyze_issue.
    destruct args as [|a1 [|a2 [|a3 [|a4 [|a5 rest]]]]]; trivial.
    now contradiction Hlen.
  - reflexivity.
Qed.

Lemma analyze_issue_endpoint_raises_witness :
  call_analyze_issue 0 [ArgStr "Login failure"; ArgStr "CUST001";
                        ArgStr "PROD001"]
  = Raise TypeError.
Proof.
  apply (proj1 (proj2 (analyze_issue_endpoint_raises 0 1 0 Request.empty))).
  simpl. lia.
Defined.

(** C10, amended.  For an endpoint that is none of the three, the response
    has status "success" and empty data when the elapsed time between the
    two clock readings is not above 15 seconds; when it is above, the status
    is "error", the data are still empty and the [error] entry is set. *)
Theorem unknown_endpoint_response (start_time end_time : float) (now : Z)
    (endpoint : string) (data : Request.t) :
  ~ known_endpoint endpoint ->
  (PrimFloat.ltb 15 (PrimFloat.sub end_time start_time) = false ->
   api_endpoint start_time end_time now endpoint data
     = Return [("status", VStr "success"); ("data", VDict [])])
  /\ (PrimFloat.ltb 15 (PrimFloat.sub end_time start_time) = true ->
      api_endpoint start_time end_time now endpoint data
        = Return [("status", VStr "error"); ("data", VDict []);
                  ("error", VStr "Response time exceeded 15 seconds")]).
Proof.
  intros Hunknown. unfold known_endpoint in Hunknown.
  unfold api_endpoint.
  destruct (String.eqb_spec endpoint "/analyze_issue") as [->|_]; [tauto|].
  destruct (String.eqb_spec endpoint "/generate_template") as [->|_]; [tauto|].
  destruct (String.eqb_spec endpoint "/summarize") as [->|_]; [tauto|].
  cbn [bind]. split; intros ->; reflexivity.
Qed.

Lemma unknown_endpoint_response_witness :
  api_endpoint 100 101 0 "/status" Request.empty
  = Return [("status", VStr "success"); ("data", VDict [])].
Proof.
  apply (proj1 (unknown_endpoint_response 100 101 0 "/status" Request.empty
                  ltac:(unfold known_endpoint; intuition discriminate))).
  reflexivity.
Defined.

(** C10 as stated fails: with clock readings 16 seconds apart, a request to
    the unknown endpoint "/status" gets status "error". *)
Lemma unknown_endpoint_slow_is_error :
  ~ known_endpoint "/status"
  /\ api_endpoint 100 116 0 "/status" Request.empty
     = Return [("status", VStr "error"); ("data", VDict []);
               ("error", VStr "Response time exceeded 15 seconds")]
  /\ api_endpoint 100 116 0 "/status" Request.empty
     <> Return [("status", VStr "success"); ("data", VDict [])].
Proof.
  split; [unfold known_endpoint; intuition discriminate|].
  split; [reflexivity | discriminate].
Qed.

(** * Further properties of the code *)

(** ** The entries of an analysis *)

Lemma analysis_entries (now : Z) (description customer product : string)
    (conn : Store.conn) :
  let analysis := snd (analyze_issue now description customer product conn) in
  Py.lookup "past_issues_count" analysis
    = Some (VInt (Store.count_issues conn customer))
  /\ Py.lookup "similar_issues" analysis
     = Some (VList (map similar_entry (Store.find_resolved conn product)))
  /\ Py.lookup "severity" analysis = Some (VStr (classify description))
  /\ Py.lookup "has_critical_issues" analysis
     = Some (VBool (0 <? Store.count_open_high_older_than conn customer
                           (now - Datetime.hours 24))).
Proof. repeat split. Qed.


Lemma filter_nil_iff {A : Type} (f : A -> bool) (l : list A) :
  filter f l = [] <-> forall x, In x l -> f x = false.
Proof.
  induction l as [|x l IH]; simpl.
  - split; [intros _ y [] | reflexivity].
  - destruct (f x) eqn:E.
    + split; [discriminate|]. intros H. specialize (H x (or_introl eq_refl)).
      congruence.
    + rewrite IH. split.
      * intros H y [<-|Hy]; auto.
      * intros H y Hy. apply H. now right.
Qed.



(** X2. The severity [analyze_issue] returns is always one of "High",
    "Normal" and "Low". *)
Theorem severity_is_a_level (now : Z)
    (description customer product : string) (conn : Store.conn) :
  let severity := fst (analyze_issue now description customer product conn) in
  severity = "High" \/ severity = "Normal" \/ severity = "Low".
Proof.
  cbn [fst analyze_issue]. rewrite classify_cascade.
  destruct (any_word_in (keywords_of "High") (Text.lower description));
    [now left|].
  destruct (any_word_in (keywords_of "Normal") (Text.lower description));
    [right; now left|].
  destruct (any_word_in (keywords_of "Low") (Text.lower description));
    [right; now right | right; now left].
Qed.

(** X3. Every entry of [similar_issues] comes from an issue of the store
    with the product id and status "Resolved", carries its description and
    a resolution text that is never empty; when the store has no resolved
    issue for the product the list is empty. *)
Theorem similar_issues_entries (now : Z)
    (description customer product : string) (conn : Store.conn) :
  exists out : list value,
    Py.lookup "similar_issues"
      (snd (analyze_issue now description customer product conn))
      = Some (VList out)
    /\ (forall entry, In entry out ->
          exists i text,
            In i (Store.issues conn)
            /\ Store.product_id i = product
            /\ Store.status i = "Resolved"
            /\ entry = VDict [("description", VStr (Store.issue_description i));
                              ("resolution", VStr text)]
            /\ text <> "")
    /\ ((forall i, In i (Store.issues conn) -> Store.product_id i = product ->
                   Store.status i <> "Resolved") ->
        out = []).
Proof.
  eexists. split; [apply analysis_entries|]. split.
  - intros entry Hin. apply in_map_iff in Hin.
    destruct Hin as [[desc res] [<- Hrow]].
    unfold Store.find_resolved in Hrow. apply in_map_iff in Hrow.
    destruct Hrow as [i [Hi Hin]]. injection Hi as <- <-.
    apply filter_In in Hin. destruct Hin as [Hin Hcond].
    apply andb_true_iff in Hcond. destruct Hcond as [Hp Hs].
    apply String.eqb_eq in Hp, Hs.
    exists i. eexists. repeat split; trivial.
    destruct (Store.resolution i) as [r|]; [|discriminate].
    destruct (String.eqb_spec r ""); simpl; [discriminate | assumption].
  - intros Hnone. unfold Store.find_resolved.
    replace (filter _ (Store.issues conn)) with (@nil Store.issue);
      [reflexivity|].
    symmetry. apply filter_nil_iff. intros i Hin.
    apply andb_false_iff.
    destruct (String.eqb_spec (Store.product_id i) product) as [Hp|];
      [right | now left].
    apply String.eqb_neq. auto.
Qed.

Lemma similar_issues_entries_witness :
  Py.lookup "similar_issues"
    (snd (analyze_issue 0 "Payment issue" "CUST001" "PROD002" init_db))
  = Some (VList []).
Proof.
  destruct (similar_issues_entries 0 "Payment issue" "CUST001" "PROD002"
              init_db) as [out [Hout [_ Hnone]]].
  rewrite Hout, Hnone; [reflexivity|].
  intros i [<-|[<-|[<-|[]]]]; vm_compute; congruence.
Defined.

(** X4. [generate_template] never raises on an analysis made by
    [analyze_issue]: the template shows the severity of the analysed
    description, the count of past issues in decimal, the notice when the
    customer has a flagged issue, and as step the resolution of the first
    resolved issue of the product (the placeholder when that resolution is
    empty or absent, "Please provide more details." when there is none). *)
Theorem template_of_analysis (now : Z)
    (description customer product shown : string) (conn : Store.conn) :
  generate_template shown
    (snd (analyze_issue now description customer product conn))
  = Return
      (findings_section shown (classify description)
         (Text.of_int (Store.count_issues conn customer))
       ++ nl ++ "- "
       ++ (if 0 <? Store.count_open_high_older_than conn customer
                     (now - 24 * 3600 * 1000000)
           then "Note: Critical issues detected that need urgent attention."
           else "")
       ++ nl ++ nl
       ++ steps_section
            match Store.find_resolved conn product with
            | [] => "Please provide more details."
            | (_, Some r) :: _ =>
                if String.eqb r "" then "No resolution provided" else r
            | (_, None) :: _ => "No resolution provided"
            end).
Proof.
  destruct (analysis_entries now description customer product conn)
    as [Hcnt [Hsim [Hsev Hflag]]].
  rewrite (generate_template_present _ _ _ _ _ _ Hsev Hcnt Hflag Hsim).
  replace (now - 24 * 3600 * 1000000) with (now - Datetime.hours 24)
    by (unfold Datetime.hours, Datetime.seconds; lia).
  destruct (Store.find_resolved conn product) as [|[desc res] rows];
    [reflexivity|].
  destruct res as [r|]; [|reflexivity].
  cbn [map similar_entry recommended Py.truthy Py.subscript_0 bind].
  destruct (String.eqb r ""); reflexivity.
Qed.

(** X5. The flag only ever turns on with time: once [has_critical_issues]
    is true at [now], it is true at every later reading of the clock, on
    the same store. *)
Theorem escalation_is_monotone (now later : Z)
    (description customer product : string) (conn : Store.conn) :
  now <= later ->
  Py.lookup "has_critical_issues"
    (snd (analyze_issue now description customer product conn))
    = Some (VBool true) ->
  Py.lookup "has_critical_issues"
    (snd (analyze_issue later description customer product conn))
    = Some (VBool true).
Proof.
  intros Hle.
  rewrite (proj2 (proj2 (proj2 (analysis_entries now _ _ _ _)))).
  rewrite (proj2 (proj2 (proj2 (analysis_entries later _ _ _ _)))).
  intros Hnow. injection Hnow as Hnow. do 2 f_equal.
  unfold Store.count_open_high_older_than in *.
  apply count_positive_iff in Hnow. apply count_positive_iff.
  destruct Hnow as [i [Hin Hi]]. exists i. split; trivial.
  apply open_high_older_than_iff in Hi. apply open_high_older_than_iff.
  intuition lia.
Qed.

Lemma escalation_is_monotone_witness :
  Py.lookup "has_critical_issues"
    (snd (analyze_issue (Datetime.datetime 2025 7 20 0 0 0)
            "Payment issue" "CUST001" "PROD002" init_db))
  = Some (VBool true).
Proof.
  apply (escalation_is_monotone (Datetime.datetime 2025 7 13 0 0 0)).
  - vm_compute. discriminate.
  - reflexivity.
Defined.

(** ** Severity of a longer text *)

Lemma lower_append (a b : string) :
  Text.lower (a ++ b) = Text.lower a ++ Text.lower b.
Proof. induction a as [|c a IH]; simpl; congruence. Qed.

Lemma occurs_inside (w a s b : string) :
  occurs w s -> occurs w (a ++ s ++ b).
Proof.
  intros [x [y ->]]. exists (a ++ x), (y ++ b).
  now rewrite !append_assoc.
Qed.

(** X6. Text put before and after a description never takes a High
    severity away: when a description is classified High, so is every text
    that contains it. *)
Theorem high_survives_context (description before after : string) :
  classify description = "High" ->
  classify (before ++ description ++ after) = "High".
Proof.
  rewrite !classify_cascade. intros Hhigh.
  assert (Hd : any_word_in (keywords_of "High") (Text.lower description)
               = true).
  { destruct (any_word_in (keywords_of "High") (Text.lower description));
      [reflexivity|].
    destruct (any_word_in (keywords_of "Normal") (Text.lower description));
      [discriminate|].
    destruct (any_word_in (keywords_of "Low") (Text.lower description));
      discriminate. }
  apply has_keyword_iff in Hd. destruct Hd as [word [Hin Hocc]].
  assert (Hall : any_word_in (keywords_of "High")
                   (Text.lower (before ++ description ++ after)) = true).
  { apply has_keyword_iff. exists word. split; trivial.
    rewrite !lower_append. now apply occurs_inside. }
  now rewrite Hall.
Qed.

Lemma high_survives_context_witness :
  classify ("Hello, " ++ "the app CRASHED" ++ " (minor glitch?)") = "High".
Proof. apply high_survives_context. reflexivity. Defined.

(** ** When the template is rendered *)


(** X8. The entries are read in the order [severity],
    [past_issues_count], [has_critical_issues], [similar_issues]: the
    [KeyError] raised names the first one that is missing.  With the four
    there, a first similar issue without [resolution] raises
    [KeyError] for that key, and a first element that is not a dict raises
    [TypeError]. *)
Theorem template_reports_first_missing_entry (description : string)
    (analysis : dict) (severity : value) :
  Py.lookup "severity" analysis = Some severity ->
  (Py.lookup "past_issues_count" analysis = None ->
   generate_template description analysis
     = Raise (KeyError (VStr "past_issues_count")))
  /\ (forall count,
        Py.lookup "past_issues_count" analysis = Some count ->
        (Py.lookup "has_critical_issues" analysis = None ->
         generate_template description analysis
           = Raise (KeyError (VStr "has_critical_issues")))
        /\ (forall critical,
              Py.lookup "has_critical_issues" analysis = Some critical ->
              (Py.lookup "similar_issues" analysis = None ->
               generate_template description analysis
                 = Raise (KeyError (VStr "similar_issues")))
              /\ (forall entry rest,
                    Py.lookup "similar_issues" analysis
                      = Some (VList (VDict entry :: rest)) ->
                    Py.lookup "resolution" entry = None ->
                    generate_template description analysis
                      = Raise (KeyError (VStr "resolution")))
              /\ (forall first rest,
                    Py.lookup "similar_issues" analysis
                      = Some (VList (first :: rest)) ->
                    (forall entry, first <> VDict entry) ->
                    generate_template description analysis
                      = Raise TypeError))).
Proof.
  intros Hsev. unfold generate_template, Py.getitem. rewrite Hsev.
  cbn [bind]. split.
  - now intros ->.
  - intros count ->. cbn [bind]. split.
    + now intros ->.
    + intros critical ->. cbn [bind]. split; [|split].
      * now intros ->.
      * intros entry rest -> Hr.
        cbn [bind Py.truthy Py.subscript_0 Py.subscript_key].
        unfold Py.getitem. now rewrite Hr.
      * intros first rest -> Hfirst.
        cbn [bind Py.truthy Py.subscript_0].
        destruct first; try reflexivity. now destruct (Hfirst d).
Qed.

Lemma template_reports_first_missing_entry_witness :
  generate_template "x" [("severity", VStr "Low")]
  = Raise (KeyError (VStr "past_issues_count"))
  /\ generate_template "x" (sample_analysis true [VDict []])
     = Raise (KeyError (VStr "resolution"))
  /\ generate_template "x" (sample_analysis true [VStr "Restart"])
     = Raise TypeError.
Proof.
  split; [|split].
  - apply (proj1 (template_reports_first_missing_entry "x"
                    [("severity", VStr "Low")] _ eq_refl)).
    reflexivity.
  - destruct (template_reports_first_missing_entry "x"
                (sample_analysis true [VDict []]) _ eq_refl)
      as [_ Hcount].
    destruct (Hcount _ eq_refl) as [_ Hcritical].
    destruct (Hcritical _ eq_refl) as [_ [Hresolution _]].
    now apply (Hresolution [] []).
  - destruct (template_reports_first_missing_entry "x"
                (sample_analysis true [VStr "Restart"]) _ eq_refl)
      as [_ Hcount].
    destruct (Hcount _ eq_refl) as [_ Hcritical].
    destruct (Hcritical _ eq_refl) as [_ [_ Hother]].
    apply (Hother (VStr "Restart") []); [reflexivity | discriminate].
Defined.

(** X9. Of [similar_issues] the template uses the resolution of the first
    entry and nothing else: two analyses with the same severity, count and
    flag whose first similar issues have the same resolution give the same
    template, whatever the descriptions and the further entries. *)
Theorem template_uses_first_resolution_only (description : string)
    (analysis other : dict) (severity count critical resolution : value)
    (entry entry' : dict) (rest rest' : list value) :
  Py.lookup "severity" analysis = Some severity ->
  Py.lookup "severity" other = Some severity ->
  Py.lookup "past_issues_count" analysis = Some count ->
  Py.lookup "past_issues_count" other = Some count ->
  Py.lookup "has_critical_issues" analysis = Some critical ->
  Py.lookup "has_critical_issues" other = Some critical ->
  Py.lookup "similar_issues" analysis = Some (VList (VDict entry :: rest)) ->
  Py.lookup "similar_issues" other = Some (VList (VDict entry' :: rest')) ->
  Py.lookup "resolution" entry = Some resolution ->
  Py.lookup "resolution" entry' = Some resolution ->
  generate_template description analysis
  = generate_template description other.
Proof.
  intros Hs Hs' Hc Hc' Hf Hf' Hl Hl' Hr Hr'.
  rewrite (generate_template_present _ _ _ _ _ _ Hs Hc Hf Hl).
  rewrite (generate_template_present _ _ _ _ _ _ Hs' Hc' Hf' Hl').
  unfold recommended.
  cbn [Py.truthy Py.subscript_0 Py.subscript_key bind].
  unfold Py.getitem. now rewrite Hr, Hr'.
Qed.

Lemma template_uses_first_resolution_only_witness :
  generate_template "x"
    (sample_analysis false
       [VDict [("description", VStr "UI glitch");
               ("resolution", VStr "Restart the application")]])
  = generate_template "x"
      (sample_analysis false
         [VDict [("resolution", VStr "Restart the application")];
          VDict [("description", VStr "Other");
                 ("resolution", VStr "Reinstall")]]).
Proof.
  eapply template_uses_first_resolution_only; reflexivity.
Defined.

(** ** The summary of a conversation *)

Lemma insert_by_timestamp_perm (m : Store.conversation)
    (l : list Store.conversation) :
  Permutation (Store.insert_by_timestamp m l) (m :: l).
Proof.
  induction l as [|x l IH]; simpl; [reflexivity|].
  destruct (Store.timestamp m <? Store.timestamp x); [reflexivity|].
  rewrite IH. apply perm_swap.
Qed.

Lemma insert_by_timestamp_sorted (m : Store.conversation)
    (l : list Store.conversation) :
  Sorted by_timestamp l -> Sorted by_timestamp (Store.insert_by_timestamp m l).
Proof.
  induction l as [|x l IH]; intros Hs; simpl.
  - repeat constructor.
  - destruct (Store.timestamp m <? Store.timestamp x) eqn:E.
    + constructor; trivial. constructor. unfold by_timestamp.
      apply Z.ltb_lt in E. lia.
    + apply Z.ltb_ge in E. inversion Hs as [|? ? Hl Hh]; subst.
      constructor; [now apply IH|].
      destruct l as [|y l]; simpl.
      * now constructor.
      * destruct (Store.timestamp m <? Store.timestamp y);
          constructor; trivial. now inversion Hh.
Qed.

Lemma order_by_timestamp_spec (l : list Store.conversation) :
  Permutation (Store.order_by_timestamp l) l
  /\ Sorted by_timestamp (Store.order_by_timestamp l).
Proof.
  unfold Store.order_by_timestamp.
  assert (H : forall acc, Sorted by_timestamp acc ->
    Permutation
      (fold_left (fun acc m => Store.insert_by_timestamp m acc) l acc)
      (l ++ acc)%list
    /\ Sorted by_timestamp
         (fold_left (fun acc m => Store.insert_by_timestamp m acc) l acc)).
  { induction l as [|m l IH]; intros acc Hacc; simpl.
    - now split.
    - destruct (IH (Store.insert_by_timestamp m acc)
                  (insert_by_timestamp_sorted m acc Hacc)) as [Hp Hs].
      split; trivial. rewrite Hp.
      rewrite insert_by_timestamp_perm. symmetry. apply Permutation_middle. }
  destruct (H [] (Sorted_nil _)) as [Hp Hs].
  now rewrite app_nil_r in Hp.
Qed.



(** X11. The lines of the summary follow the timestamps: the summary is
    the heading followed by the lines of the messages of the issue, each
    message once, taken in an order in which timestamps never decrease. *)
Theorem summary_follows_timestamps (issue_id : Z) (conn : Store.conn) :
  exists rows : list Store.conversation,
    Permutation rows
      (filter (fun m => Store.issue_id m =? issue_id)
         (Store.conversations conn))
    /\ Sorted by_timestamp rows
    /\ summarize_conversation issue_id conn
       = "Conversation Summary:" ++ nl
         ++ Text.join
              (map (fun m => "- " ++ Store.sender m ++ ": "
                             ++ Text.take 50 (Store.message m) ++ "..." ++ nl)
                 rows).
Proof.
  exists (Store.order_by_timestamp
            (filter (fun m => Store.issue_id m =? issue_id)
               (Store.conversations conn))).
  destruct (order_by_timestamp_spec
              (filter (fun m => Store.issue_id m =? issue_id)
                 (Store.conversations conn))) as [Hp Hs].
  split; [exact Hp|]. split; [exact Hs|].
  unfold summarize_conversation, Store.list_messages.
  rewrite fold_summary, append_assoc, map_map. reflexivity.
Qed.

Lemma length_take (n : nat) (s : string) :
  String.length (Text.take n s) = Nat.min n (String.length s).
Proof. destruct (take_split n s) as [rest [_ H]]. exact H. Qed.

(** X12. The summary is bounded: a message adds to it its sender, at most
    50 characters of its text and 8 characters of punctuation, so the
    length of the summary is 22 for the heading plus, for each message, 8
    plus the length of the sender plus the smaller of 50 and the length of
    the message. *)
Theorem summary_length (issue_id : Z) (conn : Store.conn) :
  String.length (summarize_conversation issue_id conn)
  = (22 + list_sum
            (map (fun row => 8 + String.length (snd row)
                             + Nat.min 50 (String.length (fst row)))
               (Store.list_messages conn issue_id)))%nat.
Proof.
  unfold summarize_conversation. rewrite fold_summary, length_append.
  change (String.length ("Conversation Summary:" ++ nl)) with 22%nat.
  f_equal.
  induction (Store.list_messages conn issue_id) as [|[msg sender] rows IH].
  - reflexivity.
  - cbn [map Text.join list_sum fst snd]. rewrite length_append, IH.
    f_equal. unfold summary_line.
    rewrite !length_append, length_take. simpl. lia.
Qed.

(** ** The responses of the endpoint *)

(** X13. A response of the endpoint has the entries [status] and [data],
    and [error] exactly when the status is "error"; the status says only
    whether more than 15 seconds passed between the two clock readings.
    The data, and whether the call raises, do not depend on the clock. *)
Theorem response_shape (start_time end_time : float) (now : Z)
    (endpoint : string) (data : Request.t) :
  (forall response,
     api_endpoint start_time end_time now endpoint data = Return response ->
     exists payload : dict,
       forall s e : float,
         api_endpoint s e now endpoint data
         = Return (timed_response s e payload))
  /\ (forall ex,
        api_endpoint start_time end_time now endpoint data = Raise ex ->
        forall s e : float, api_endpoint s e now endpoint data = Raise ex).
Proof.
  unfold api_endpoint, timed_response.
  destruct (String.eqb endpoint "/analyze_issue").
  { split; [discriminate | trivial]. }
  destruct (String.eqb endpoint "/generate_template").
  { destruct (generate_template _ _) as [template|ex0]; cbn [bind].
    - split; [|intros ex Hex; revert Hex;
                destruct (PrimFloat.ltb _ _); discriminate].
      intros response _. exists [("template", VStr template)].
      intros s e. destruct (PrimFloat.ltb _ _); reflexivity.
    - split; [discriminate | trivial]. }
  destruct (String.eqb endpoint "/summarize"); cbn [bind].
  - split; [|intros ex Hex; revert Hex;
              destruct (PrimFloat.ltb _ _); discriminate].
    intros response _. eexists. intros s e. destruct (PrimFloat.ltb _ _); reflexivity.
  - split; [|intros ex Hex; revert Hex;
              destruct (PrimFloat.ltb _ _); discriminate].
    intros response _. exists []. intros s e. destruct (PrimFloat.ltb _ _); reflexivity.
Qed.

Lemma response_shape_witness :
  exists payload : dict,
    forall s e : float,
      api_endpoint s e 0 "/summarize" Request.empty
      = Return (timed_response s e payload).
Proof.
  exact (proj1 (response_shape 0 1 0 "/summarize" Request.empty) _ eq_refl).
Defined.


(** X15. The "/generate_template" endpoint returns under [template] the
    text [generate_template] makes of the request's description (the empty
    text when absent) and analysis, and raises what it raises. *)
Theorem template_endpoint_dispatch (start_time end_time : float) (now : Z)
    (data : Request.t) :
  let description := Request.get (Request.issue_description data) "" in
  let analysis := Request.get (Request.analysis data) [] in
  (forall text,
     generate_template description analysis = Return text ->
     api_endpoint start_time end_time now "/generate_template" data
     = Return (timed_response start_time end_time [("template", VStr text)]))
  /\ (forall ex,
        generate_template description analysis = Raise ex ->
        api_endpoint start_time end_time now "/generate_template" data
        = Raise ex).
Proof.
  cbv zeta. unfold api_endpoint, timed_response.
  cbn [String.eqb Ascii.eqb Bool.eqb].
  split; [intros text -> | intros ex ->]; cbn [bind];
    [destruct (PrimFloat.ltb _ _)|]; reflexivity.
Qed.

Lemma template_endpoint_dispatch_witness :
  exists text,
    api_endpoint 0 1 0 "/generate_template"
      (Request.Build_t (Some "Login failure") None None
         (Some (sample_analysis false [])) None)
    = Return [("status", VStr "success");
              ("data", VDict [("template", VStr text)])].
Proof.
  eexists.
  apply (proj1 (template_endpoint_dispatch 0 1 0
                  (Request.Build_t (Some "Login failure") None None
                     (Some (sample_analysis false [])) None))).
  reflexivity.
Defined.

(** ** Submitting an issue on the page *)

Lemma analysis_template_returns (now : Z)
    (description customer product shown : string) (conn : Store.conn) :
  exists text,
    generate_template shown
      (snd (analyze_issue now description customer product conn))
    = Return text.
Proof.
  destruct (analysis_entries now description customer product conn)
    as [Hcnt [Hsim [Hsev Hflag]]].
  rewrite (generate_template_present _ _ _ _ _ _ Hsev Hcnt Hflag Hsim).
  destruct (Store.find_resolved conn product) as [|[desc res] rows];
    eexists; reflexivity.
Qed.

(** What a submission shows and leaves in the store. *)
Lemma on_submit_result (conn : Store.conn)
    (customer product description : string)
    (now_analysis now_issue now_message : Z) :
  exists template,
    generate_template description
      (snd (analyze_issue now_analysis description customer product conn))
    = Return template
    /\ on_submit conn customer product description
         now_analysis now_issue now_message
       = Return
           ((([ Ui.Subheader "Issue Analysis";
                Ui.Write ("Severity: " ++ classify description);
                Ui.Write ("Past Issues: "
                          ++ Text.of_int (Store.count_issues conn customer)) ]
              ++ (if 0 <? Store.count_open_high_older_than conn customer
                            (now_analysis - Datetime.hours 24)
                  then [ Ui.Warning "Critical issues detected!" ] else []))
             ++ [ Ui.Subheader "Recommended Response";
                  Ui.TextArea "Response Template" (Some template) (Some 200);
                  Ui.Subheader "Conversation Summary";
                  Ui.Text (summarize_conversation (Writes.next_id conn)
                             (filed conn customer product description
                                now_issue now_message)) ])%list,
            filed conn customer product description now_issue now_message).
Proof.
  destruct (analysis_template_returns now_analysis description customer
              product description conn) as [template Htemplate].
  exists template. split; trivial.
  unfold on_submit.
  change (analyze_issue now_analysis description customer product conn)
    with (fst (analyze_issue now_analysis description customer product conn),
          snd (analyze_issue now_analysis description customer product conn))
    at 1.
  cbv iota beta. rewrite Htemplate. reflexivity.
Qed.

Lemma max_id_snoc (ids : list Z) (x : Z) :
  fold_right Z.max 0 (ids ++ [x]) = Z.max (fold_right Z.max 0 ids) (Z.max x 0).
Proof.
  induction ids as [|y ids IH]; simpl; [lia|].
  rewrite IH. lia.
Qed.


Lemma next_id_positive (conn : Store.conn) : 1 <= Writes.next_id conn.
Proof.
  unfold Writes.next_id.
  assert (0 <= fold_right Z.max 0 (map Store.id (Store.issues conn))).
  { induction (map Store.id (Store.issues conn)); simpl; lia. }
  lia.
Qed.

Lemma next_id_filed (conn : Store.conn)
    (customer product description : string) (created sent : Z) :
  Writes.next_id (filed conn customer product description created sent)
  = Writes.next_id conn + 1.
Proof.
  pose proof (next_id_positive conn) as Hpos. unfold Writes.next_id in *.
  unfold filed, filed_issue. cbn [Store.issues].
  rewrite map_app. cbn [map Store.id]. rewrite max_id_snoc.
  unfold Writes.next_id. lia.
Qed.

Lemma count_issues_filed (conn : Store.conn)
    (customer product description other : string) (created sent : Z) :
  Store.count_issues
    (filed conn customer product description created sent) other
  = Store.count_issues conn other
    + (if String.eqb customer other then 1 else 0).
Proof.
  unfold Store.count_issues, filed, filed_issue. cbn [Store.issues].
  rewrite filter_app, length_app. cbn [filter Store.customer_id].
  destruct (String.eqb customer other); simpl; lia.
Qed.

Lemma list_messages_filed (conn : Store.conn)
    (customer product description : string) (created sent : Z) :
  conversations_bounded conn ->
  Store.list_messages
    (filed conn customer product description created sent)
    (Writes.next_id conn)
  = [(description, "Customer")].
Proof.
  intros Hb. unfold Store.list_messages, filed, filed_message.
  cbn [Store.conversations]. rewrite filter_app.
  replace (filter _ (Store.conversations conn))
    with (@nil Store.conversation).
  - cbn [app filter Store.issue_id]. rewrite Z.eqb_refl. reflexivity.
  - symmetry. apply filter_nil_iff. intros m Hin. apply Z.eqb_neq.
    specialize (Hb m Hin). lia.
Qed.



(** X17. The count of past issues a submission shows is the one before its
    own write: afterwards the store counts one issue more for the customer,
    and as many as before for every other customer. *)
Theorem submission_counts_before_write (conn : Store.conn)
    (customer product description : string)
    (now_analysis now_issue now_message : Z) :
  exists events after,
    on_submit conn customer product description
      now_analysis now_issue now_message = Return (events, after)
    /\ In (Ui.Write ("Past Issues: "
                     ++ Text.of_int (Store.count_issues conn customer)))
          events
    /\ Store.count_issues after customer
       = Store.count_issues conn customer + 1
    /\ forall other, other <> customer ->
         Store.count_issues after other = Store.count_issues conn other.
Proof.
  destruct (on_submit_result conn customer product description
              now_analysis now_issue now_message) as [template [_ Hres]].
  do 2 eexists. split; [exact Hres|]. split; [|split].
  - apply in_or_app. left. apply in_or_app. left. simpl. tauto.
  - rewrite count_issues_filed, String.eqb_refl. reflexivity.
  - intros other Hother. rewrite count_issues_filed.
    destruct (String.eqb_spec customer other); [congruence | lia].
Qed.

Lemma submission_counts_before_write_witness :
  exists events after,
    on_submit init_db "CUST001" "PROD002" "Payment problem" 0 1 2
    = Return (events, after)
    /\ Store.count_issues after "CUST001" = 3
    /\ Store.count_issues after "CUST002" = 1.
Proof.
  destruct (submission_counts_before_write init_db "CUST001" "PROD002"
              "Payment problem" 0 1 2)
    as [events [after [Hres [_ [Hsame Hother]]]]].
  exists events, after. split; [exact Hres|]. split.
  - rewrite Hsame. reflexivity.
  - rewrite Hother; [reflexivity | discriminate].
Defined.

(** X18. On a store whose conversations refer only to ids already given
    out, the summary a submission shows holds the new message alone, cut to
    50 characters and followed by "..."; the store it leaves is again such
    a store. *)
Theorem submission_summary (conn : Store.conn)
    (customer product description : string)
    (now_analysis now_issue now_message : Z) :
  conversations_bounded conn ->
  exists events after,
    on_submit conn customer product description
      now_analysis now_issue now_message = Return (events, after)
    /\ In (Ui.Text ("Conversation Summary:" ++ nl
                    ++ "- Customer: " ++ Text.take 50 description
                    ++ "..." ++ nl))
          events
    /\ conversations_bounded after.
Proof.
  intros Hb.
  destruct (on_submit_result conn customer product description
              now_analysis now_issue now_message) as [template [_ Hres]].
  do 2 eexists. split; [exact Hres|]. split.
  - apply in_or_app. right. simpl. do 3 right. left. f_equal.
    unfold summarize_conversation. now rewrite list_messages_filed.
  - intros m Hin. rewrite next_id_filed.
    unfold filed in Hin. cbn [Store.conversations] in Hin.
    apply in_app_or in Hin. destruct Hin as [Hin|[<-|[]]].
    + specialize (Hb m Hin). lia.
    + unfold filed_message. cbn [Store.issue_id]. lia.
Qed.

Lemma submission_summary_witness :
  exists events after,
    on_submit init_db "CUST009" "PROD001" "Screen is blank" 0 1 2
    = Return (events, after)
    /\ In (Ui.Text ("Conversation Summary:" ++ nl
                    ++ "- Customer: " ++ Text.take 50 "Screen is blank"
                    ++ "..." ++ nl))
          events
    /\ conversations_bounded after.
Proof.
  apply submission_summary. intros m [].
Defined.

Lemma find_resolved_filed (conn : Store.conn)
    (customer product description other : string) (created sent : Z) :
  Store.find_resolved
    (filed conn customer product description created sent) other
  = Store.find_resolved conn other.
Proof.
  unfold Store.find_resolved, filed, filed_issue. cbn [Store.issues].
  rewrite filter_app. cbn [filter Store.product_id Store.status].
  replace (String.eqb "Open" "Resolved") with false by reflexivity.
  rewrite andb_false_r, app_nil_r. reflexivity.
Qed.

(** X19. A submitted issue is never offered as a similar issue: after a
    submission every analysis lists the same similar issues as before
    it. *)
Theorem submission_is_never_similar (conn : Store.conn)
    (customer product description : string)
    (now_analysis now_issue now_message : Z) :
  exists events after,
    on_submit conn customer product description
      now_analysis now_issue now_message = Return (events, after)
    /\ forall now description' customer' product',
         Py.lookup "similar_issues"
           (snd (analyze_issue now description' customer' product' after))
         = Py.lookup "similar_issues"
             (snd (analyze_issue now description' customer' product' conn)).
Proof.
  destruct (on_submit_result conn customer product description
              now_analysis now_issue now_message) as [template [_ Hres]].
  do 2 eexists. split; [exact Hres|].
  intros now d' c' p'.
  rewrite (proj1 (proj2 (analysis_entries now d' c' p' _))).
  rewrite (proj1 (proj2 (analysis_entries now d' c' p' conn))).
  now rewrite find_resolved_filed.
Qed.



Lemma init_db_flag (customer : string) (cutoff : Z) :
  (0 <? Store.count_open_high_older_than init_db customer cutoff) = true <->
  customer = "CUST001" /\ Datetime.datetime 2025 7 11 10 0 0 < cutoff.
Proof.
  unfold Store.count_open_high_older_than. rewrite count_positive_iff.
  split.
  - intros [i [Hin Hi]]. apply open_high_older_than_iff in Hi.
    destruct Hi as [Hc [Hs [Ho Hlt]]].
    destruct Hin as [<-|[<-|[<-|[]]]]; try discriminate.
    split; [now symmetry | exact Hlt].
  - intros [-> Hlt]. eexists. split; [left; reflexivity|].
    apply open_high_older_than_iff. repeat split. exact Hlt.
Qed.

(** X21. Every run of the page starts from the sample store.  Without a
    submission the store is left as it is.  With one, the run never fails,
    the summary shown holds the submitted message alone, and the warning
    "Critical issues detected!" is shown exactly when the customer is
    "CUST001" and the analysis is made more than 24 hours after
    2025-07-11 10:00:00. *)
Theorem page_run (customer product description : string)
    (submit_button : bool) (now_analysis now_issue now_message : Z) :
  exists events after,
    main customer product description submit_button
      now_analysis now_issue now_message = Return (events, after)
    /\ (submit_button = false -> after = init_db)
    /\ (submit_button = true ->
        In (Ui.Text ("Conversation Summary:" ++ nl
                     ++ "- Customer: " ++ Text.take 50 description
                     ++ "..." ++ nl)) events
        /\ (In (Ui.Warning "Critical issues detected!") events <->
            customer = "CUST001"
            /\ Datetime.datetime 2025 7 11 10 0 0
               < now_analysis - 24 * 3600 * 1000000)).
Proof.
  unfold main. destruct submit_button.
  - destruct (on_submit_result init_db customer product description
                now_analysis now_issue now_message) as [template [_ Hres]].
    rewrite Hres. cbn [bind]. do 2 eexists. split; [reflexivity|].
    split; [discriminate|]. intros _. split.
    + apply in_or_app. right. apply in_or_app. left.
      apply in_or_app. right. do 3 right. left. reflexivity.
    + replace (now_analysis - 24 * 3600 * 1000000)
        with (now_analysis - Datetime.hours 24)
        by (unfold Datetime.hours, Datetime.seconds; lia).
      rewrite <- init_db_flag.
      destruct (0 <? Store.count_open_high_older_than init_db customer
                       (now_analysis - Datetime.hours 24)).
      * split; [reflexivity|]. intros _.
        apply in_or_app. right. apply in_or_app. left.
        apply in_or_app. left. apply in_or_app. right. now left.
      * split; [|discriminate]. intros Hin.
        repeat (apply in_app_or in Hin; destruct Hin as [Hin|Hin]);
          simpl in Hin; repeat (destruct Hin as [Hin|Hin]; try discriminate);
          contradiction.
  - do 2 eexists. split; [reflexivity|]. split; [reflexivity|discriminate].
Qed.

Lemma page_run_witness :
  exists events after,
    main "CUST001" "PROD001" "Login failure again" true
      (Datetime.datetime 2025 7 13 9 0 0) (Datetime.datetime 2025 7 13 9 0 0)
      (Datetime.datetime 2025 7 13 9 0 0)
    = Return (events, after)
    /\ In (Ui.Warning "Critical issues detected!") events.
Proof.
  destruct (page_run "CUST001" "PROD001" "Login failure again" true
              (Datetime.datetime 2025 7 13 9 0 0)
              (Datetime.datetime 2025 7 13 9 0 0)
              (Datetime.datetime 2025 7 13 9 0 0))
    as [events [after [Hrun [_ Hsubmit]]]].
  exists events, after. split; [exact Hrun|].
  apply (proj2 (Hsubmit eq_refl)). split; [reflexivity|].
  vm_compute. reflexivity.
Defined.
